(** * Verification of the RAG chatbot backend: the tool-calling orchestrator
    ([backend/ai_generator.py]) and the session store
    ([backend/session_manager.py]).

    Shallow embedding.  The remote model ([self.client.messages.create]) and
    the tool manager ([tool_manager.execute_tool]) are opaque collaborators:
    the model is an oracle answering its [n]-th call, and a tool manager
    answers its [n]-th invocation; both may raise.  Python exceptions are the
    left side of a sum; [try]/[except] blocks become explicit matches. *)

From Stdlib Require Import String Ascii ZArith Lia FinFun Sorted.
From stdpp Require Import base gmap strings list pretty.

Open Scope string_scope.

Definition nl : string := String (ascii_of_nat 10) EmptyString.

Module Orchestrator.

(** Tool arguments ([content_block.input], a JSON object). *)
Definition args := list (string * string).

(** Content blocks of a model response: [{type:"text", text}] or
    [{type:"tool_use", id, name, input}]. *)
Inductive block :=
| TextBlock (text : string)
| ToolUseBlock (id name : string) (input : args).

Record response := { stop_reason : string; content : list block }.

Record tool_result := { tool_use_id : string; result_content : string }.

(** Message contents: plain text (the query), the assistant's blocks, or a
    list of tool results. *)
Inductive msg_content :=
| MText (s : string)
| MBlocks (bs : list block)
| MToolResults (rs : list tool_result).

Record message := { role : string; mcontent : msg_content }.

(** A tool schema handed to the model; only its identity matters here. *)
Definition tool_schema := string.

(** The keyword arguments of [messages.create]: the fixed [base_params]
    (model, temperature 0, max_tokens 800) are left implicit; ["tools"] is
    either absent ([None]) or present, always with [tool_choice = auto]. *)
Record request := {
  req_messages : list message;
  req_system : string;
  req_tools : option (list tool_schema)
}.

(** Exceptions: a failing model call, a failing tool, and the two Python
    errors raised by [response.content[0].text]. *)
Inductive exn :=
| APIError (msg : string)
| ToolError (msg : string)
| IndexError
| AttributeError.

(** [str(e)] *)
Definition exn_str (e : exn) : string :=
  match e with
  | APIError m => m
  | ToolError m => m
  | IndexError => "list index out of range"
  | AttributeError => "'ToolUseBlock' object has no attribute 'text'"
  end.

(** The state threaded through one [generate_response] call: the requests
    sent to the model, the tool invocations, and (ghost) the round numbers
    for which [_execute_single_tool_round] was entered. *)
Record st := {
  requests : list request;
  tool_calls : list (string * args);
  rounds : list nat
}.

Definition st0 : st := {| requests := []; tool_calls := []; rounds := [] |}.

Definition log_request (s : st) (r : request) : st :=
  {| requests := app (requests s) [r]; tool_calls := tool_calls s; rounds := rounds s |}.

Definition log_tool_call (s : st) (c : string * args) : st :=
  {| requests := requests s; tool_calls := app (tool_calls s) [c]; rounds := rounds s |}.

Definition log_round (s : st) (n : nat) : st :=
  {| requests := requests s; tool_calls := tool_calls s; rounds := app (rounds s) [n] |}.

(** The model: answer (or exception) of the [n]-th call to [messages.create]. *)
Definition model_client := nat -> request -> exn + response.

(** A tool manager: result (or exception) of its [n]-th [execute_tool]. *)
Definition tool_manager := nat -> string -> args -> exn + string.

Definition MAX_ROUNDS : nat := 2.

(** [AIGenerator.SYSTEM_PROMPT] (first line; the text is opaque to every
    property below). *)
Definition SYSTEM_PROMPT : string :=
  " You are an AI assistant specialized in course materials and educational content with access to search tools for course information.".

Definition APOLOGY : string :=
  "I apologize, but I was unable to generate a proper response.".

Definition is_tool_use (b : block) : bool :=
  match b with ToolUseBlock _ _ _ => true | TextBlock _ => false end.

(** [block.text]: only text blocks have the attribute. *)
Definition text_attr (b : block) : exn + string :=
  match b with
  | TextBlock t => inr t
  | ToolUseBlock _ _ _ => inl AttributeError
  end.

(** [response.content[0].text] *)
Definition first_text (r : response) : exn + string :=
  match content r with
  | [] => inl IndexError
  | b :: _ => text_attr b
  end.

(** The text recorded for one tool invocation: its result, or the error
    text of the [except] branch. *)
Definition tool_outcome (r : exn + string) : string :=
  match r with
  | inr t => t
  | inl e => "Tool execution error: " ++ exn_str e
  end.

Section Client.

Variable client : model_client.

(** [self.client.messages.create(...)] *)
Definition create (req : request) (s : st) : (exn + response) * st :=
  (client (length (requests s)) req, log_request s req).

(** [_build_enhanced_system_prompt] *)
Definition build_enhanced_system_prompt (base_system : string) (round_number : nat) : string :=
  if Nat.leb round_number 1 then base_system
  else base_system ++ nl ++ nl ++ "Current execution context: Round " ++ pretty round_number
       ++ "/2 - You can use tool results from previous rounds to inform your next tool calls.".

(** The [for content_block in response.content] loop of
    [_execute_single_tool_round]: each tool_use block is executed in order,
    a raised exception being caught and turned into text. *)
Fixpoint run_tools (tm : tool_manager) (bs : list block) (s : st) : list tool_result * st :=
  match bs with
  | [] => ([], s)
  | TextBlock _ :: rest => run_tools tm rest s
  | ToolUseBlock id name input :: rest =>
      let out := tool_outcome (tm (length (tool_calls s)) name input) in
      let '(rs, s2) := run_tools tm rest (log_tool_call s (name, input)) in
      ({| tool_use_id := id; result_content := out |} :: rs, s2)
  end.

(** [_execute_single_tool_round].  The Python list [messages] is mutated in
    place, so the caller sees the appended turns even when the model call at
    the end raises: the updated list is returned in both cases. *)
Definition execute_single_tool_round (resp : response) (base : request) (tm : tool_manager)
    (messages : list message) (round_number : nat) (s : st)
    : (list message * (exn + response)) * st :=
  let s0 := log_round s round_number in
  let messages1 := app messages [{| role := "assistant"; mcontent := MBlocks (content resp) |}] in
  let '(tool_results, s1) := run_tools tm (content resp) s0 in
  let messages2 :=
    match tool_results with
    | [] => messages1
    | _ => app messages1 [{| role := "user"; mcontent := MToolResults tool_results |}]
    end in
  let next_params := {| req_messages := messages2;
                        req_system := build_enhanced_system_prompt (req_system base) round_number;
                        req_tools := req_tools base |} in
  let '(next_response, s2) := create next_params s1 in
  ((messages2, next_response), s2).

Definition has_tool_use (r : response) : bool := existsb is_tool_use (content r).

(** [_should_continue_execution] *)
Definition should_continue_execution (r : response) (current_round max_rounds : nat) : bool :=
  if Nat.leb max_rounds current_round then false
  else has_tool_use r && String.eqb (stop_reason r) "tool_use".

(** [error_msg] of [_handle_tool_error] *)
Definition tool_error_msg (round_number : nat) (e : exn) : string :=
  "I encountered an error while executing tools in round " ++ pretty round_number ++ ": " ++ exn_str e.

(** [_handle_tool_error]: one fallback call without tools. *)
Definition fallback_request (messages : list message) (base : request) : request :=
  {| req_messages := messages; req_system := req_system base; req_tools := None |}.

Definition handle_tool_error (e : exn) (round_number : nat) (messages : list message)
    (base : request) (s : st) : string * st :=
  let error_msg := tool_error_msg round_number e in
  let '(r, s1) := create (fallback_request messages base) s in
  match r with
  | inr fallback_response =>
      match first_text fallback_response with
      | inr t => (t, s1)
      | inl _ => (error_msg, s1)
      end
  | inl _ => (error_msg, s1)
  end.

(** [_extract_final_response] *)
Definition extract_final_response (r : response) : exn + string :=
  match content r with
  | [] => inr APOLOGY
  | b :: _ => text_attr b
  end.

(** The [while current_round < MAX_ROUNDS] loop of
    [_execute_sequential_tools]; [fuel] bounds the iterations (the loop
    condition alone stops it after [MAX_ROUNDS] of them). *)
Fixpoint seq_loop (fuel current_round : nat) (current_response : response) (base : request)
    (tm : tool_manager) (messages : list message) (s : st) : (exn + string) * st :=
  match fuel with
  | O => (extract_final_response current_response, s)
  | S fuel' =>
      if Nat.ltb current_round MAX_ROUNDS then
        let round := S current_round in
        match execute_single_tool_round current_response base tm messages round s with
        | ((messages', inl e), s1) =>
            let '(t, s2) := handle_tool_error e round messages' base s1 in (inr t, s2)
        | ((messages', inr r), s1) =>
            if should_continue_execution r round MAX_ROUNDS
            then seq_loop fuel' round r base tm messages' s1
            else (extract_final_response r, s1)
        end
      else (extract_final_response current_response, s)
  end.

(** [_execute_sequential_tools] *)
Definition execute_sequential_tools (initial_response : response) (base : request)
    (tm : tool_manager) (s : st) : (exn + string) * st :=
  seq_loop MAX_ROUNDS 0 initial_response base tm (req_messages base) s.

(** The [api_params] built by [generate_response]. *)
Definition initial_request (query : string) (conversation_history : option string)
    (tools : option (list tool_schema)) : request :=
  let system_content :=
    match conversation_history with
    | Some h => if String.eqb h "" then SYSTEM_PROMPT
                else SYSTEM_PROMPT ++ nl ++ nl ++ "Previous conversation:" ++ nl ++ h
    | None => SYSTEM_PROMPT
    end in
  {| req_messages := [{| role := "user"; mcontent := MText query |}];
     req_system := system_content;
     req_tools := match tools with Some (_ :: _) => tools | _ => None end |}.

(** [generate_response] *)
Definition generate_response (query : string) (conversation_history : option string)
    (tools : option (list tool_schema)) (tool_manager : option tool_manager) (s : st)
    : (exn + string) * st :=
  let api_params := initial_request query conversation_history tools in
  let '(r, s1) := create api_params s in
  match r with
  | inl e => (inl e, s1)
  | inr response =>
      match tool_manager with
      | Some tm =>
          if String.eqb (stop_reason response) "tool_use"
          then execute_sequential_tools response api_params tm s1
          else (first_text response, s1)
      | None => (first_text response, s1)
      end
  end.

End Client.

(** The tool_use blocks of a content list, in order. *)
Fixpoint tool_uses (bs : list block) : list (string * string * args) :=
  match bs with
  | [] => []
  | TextBlock _ :: rest => tool_uses rest
  | ToolUseBlock id name input :: rest => (id, name, input) :: tool_uses rest
  end.

(** The tool manager that returns, as its result, the text the orchestrator
    records for [tm]'s outcome. *)
Definition as_text_tools (tm : tool_manager) : tool_manager :=
  fun k name input => inr (tool_outcome (tm k name input)).

(** A mocked client answering from a fixed list, like
    [messages.create.side_effect = [...]] in the tests; past its end it raises. *)
Definition scripted (rs : list (exn + response)) : model_client :=
  fun n _ => nth n rs (inl (APIError "StopIteration")).

(** A tool manager whose every invocation raises. *)
Definition failing_tools (msg : string) : tool_manager :=
  fun _ _ _ => inl (ToolError msg).

(** A tool manager that always succeeds. *)
Definition echo_tools : tool_manager :=
  fun _ name _ => inr ("results of " ++ name).

Definition tool_request (id name : string) : response :=
  {| stop_reason := "tool_use"; content := [ToolUseBlock id name [("query", "test")]] |}.

Definition text_response (t : string) : response :=
  {| stop_reason := "end_turn"; content := [TextBlock t] |}.

Definition demo_tools : list tool_schema := ["search_course_content"; "get_course_outline"].

(** The conditions every request sent during one run satisfies, for the
    [api_params] [base] of that run. *)
Definition request_ok (base : request) (req : request) : Prop :=
  (req_tools req = req_tools base \/ req_tools req = None) /\
  (req_system req = req_system base \/
   req_system req = build_enhanced_system_prompt (req_system base) 2).

End Orchestrator.

Module Sessions.

(** [Message]: timestamps come from an injected clock ([now]) instead of
    [datetime.utcnow()]. *)
Record Message := { msg_role : string; msg_content : string; msg_timestamp : Z }.

Record SessionInfo := {
  session_id : string;
  messages : list Message;
  created_at : Z;
  last_activity : Z
}.

(** The fields of [SessionManager] read by the operations below (the lock
    and the cleanup thread are not modelled: every operation runs under the
    lock, i.e. atomically).  [session_counter] is a Python int that starts at
    0 and is only incremented. *)
Record SessionManager := {
  max_history : Z;
  session_timeout : Z;
  sessions : gmap string SessionInfo;
  session_counter : nat
}.

Definition new_manager (max_history_ : Z) (timeout : Z) : SessionManager :=
  {| max_history := max_history_; session_timeout := timeout; sessions := ∅; session_counter := 0 |}.

Definition set_sessions (m : SessionManager) (ss : gmap string SessionInfo) : SessionManager :=
  {| max_history := max_history m; session_timeout := session_timeout m;
     sessions := ss; session_counter := session_counter m |}.

(** Python's slice [l[i:]] for an int [i] (negative [i] counts from the end). *)
Definition py_slice_from {A} (l : list A) (i : Z) : list A :=
  let n := Z.of_nat (length l) in
  let start := if (i <? 0)%Z then Z.max 0 (n + i) else Z.min i n in
  drop (Z.to_nat start) l.

Definition fresh_session (sid : string) (now : Z) : SessionInfo :=
  {| session_id := sid; messages := []; created_at := now; last_activity := now |}.

(** [f"session_{self.session_counter}"] *)
Definition session_name (counter : nat) : string := "session_" ++ pretty counter.

(** [create_session] *)
Definition create_session (m : SessionManager) (now : Z) : string * SessionManager :=
  let counter := S (session_counter m) in
  let sid := session_name counter in
  (sid, {| max_history := max_history m; session_timeout := session_timeout m;
           sessions := <[sid := fresh_session sid now]> (sessions m);
           session_counter := counter |}).

(** [add_message] *)
Definition add_message (m : SessionManager) (sid role content : string) (now : Z) : SessionManager :=
  let session := match sessions m !! sid with
                 | Some si => si
                 | None => fresh_session sid now
                 end in
  let msgs := app (messages session)
                  [{| msg_role := role; msg_content := content; msg_timestamp := now |}] in
  let msgs' := if (max_history m * 2 <? Z.of_nat (length msgs))%Z
               then py_slice_from msgs (- max_history m * 2)%Z
               else msgs in
  set_sessions m (<[sid := {| session_id := session_id session; messages := msgs';
                              created_at := created_at session; last_activity := now |}]>
                  (sessions m)).

(** [add_exchange] *)
Definition add_exchange (m : SessionManager) (sid user_message assistant_message : string)
    (now : Z) : SessionManager :=
  add_message (add_message m sid "user" user_message now) sid "assistant" assistant_message now.

(** ASCII case mapping and [str.title()]: a cased character is upper-cased
    when the previous character is not cased, lower-cased otherwise. *)
Definition is_upper (c : ascii) : bool := Nat.leb 65 (nat_of_ascii c) && Nat.leb (nat_of_ascii c) 90.
Definition is_lower (c : ascii) : bool := Nat.leb 97 (nat_of_ascii c) && Nat.leb (nat_of_ascii c) 122.
Definition is_cased (c : ascii) : bool := is_upper c || is_lower c.
Definition to_upper (c : ascii) : ascii :=
  if is_lower c then ascii_of_nat (nat_of_ascii c - 32) else c.
Definition to_lower (c : ascii) : ascii :=
  if is_upper c then ascii_of_nat (nat_of_ascii c + 32) else c.

Fixpoint title_from (prev_cased : bool) (s : string) : string :=
  match s with
  | EmptyString => EmptyString
  | String c rest =>
      String (if prev_cased then to_lower c else to_upper c) (title_from (is_cased c) rest)
  end.

Definition title (s : string) : string := title_from false s.

(** ["\n".join(parts)] *)
Fixpoint join (sep : string) (parts : list string) : string :=
  match parts with
  | [] => ""
  | [p] => p
  | p :: rest => p ++ sep ++ join sep rest
  end.

Definition format_message (msg : Message) : string :=
  title (msg_role msg) ++ ": " ++ msg_content msg.

(** [get_conversation_history]; [session_id] is an [Optional[str]]. *)
Definition get_conversation_history (m : SessionManager) (sid : option string) (now : Z)
    : option string * SessionManager :=
  match sid with
  | None => (None, m)
  | Some id =>
      if String.eqb id "" then (None, m)
      else match sessions m !! id with
           | None => (None, m)
           | Some session =>
               match messages session with
               | [] => (None, m)
               | msgs =>
                   (Some (join nl (map format_message msgs)),
                    set_sessions m (<[id := {| session_id := session_id session; messages := msgs;
                                               created_at := created_at session;
                                               last_activity := now |}]> (sessions m)))
               end
           end
  end.

(** [clear_session] *)
Definition clear_session (m : SessionManager) (sid : string) : SessionManager :=
  set_sessions m (delete sid (sessions m)).

(** One sweep of [_cleanup_expired_sessions]: sessions idle for more than
    [session_timeout] are deleted. *)
Definition cleanup_expired_sessions (m : SessionManager) (now : Z) : SessionManager :=
  set_sessions m (filter (fun '(_, si) => ~ (now - last_activity si > session_timeout m)%Z) (sessions m)).

(** Store operations, for arbitrary interleavings (each runs under the lock). *)
Inductive op :=
| OpCreate
| OpAddMessage (sid role content : string)
| OpAddExchange (sid user_message assistant_message : string)
| OpGetHistory (sid : option string)
| OpClear (sid : string)
| OpCleanup.

(** Runs timed operations; returns the ids minted by [create_session], in order. *)
Fixpoint run_ops (m : SessionManager) (ops : list (op * Z)) : list string * SessionManager :=
  match ops with
  | [] => ([], m)
  | (o, now) :: rest =>
      match o with
      | OpCreate =>
          let '(sid, m1) := create_session m now in
          let '(ids, m2) := run_ops m1 rest in (sid :: ids, m2)
      | OpAddMessage sid role content => run_ops (add_message m sid role content now) rest
      | OpAddExchange sid u a => run_ops (add_exchange m sid u a now) rest
      | OpGetHistory sid => run_ops (snd (get_conversation_history m sid now)) rest
      | OpClear sid => run_ops (clear_session m sid) rest
      | OpCleanup => run_ops (cleanup_expired_sessions m now) rest
      end
  end.

(** [get_session_stats]: the number of sessions and the total number of
    stored messages. *)
Record SessionStats := { total_sessions : nat; total_messages : nat }.

Definition get_session_stats (m : SessionManager) : SessionStats :=
  {| total_sessions := size (sessions m);
     total_messages := sum_list_with (fun si => length (messages si))
                                     (map snd (map_to_list (sessions m))) |}.

(** The message total of a session table. *)
Definition msgs_total (ss : gmap string SessionInfo) : nat :=
  sum_list_with (fun si => length (messages si)) (map snd (map_to_list ss)).

End Sessions.

(** The request models and the query endpoint of [backend/app.py].
    Strings are ASCII, so pydantic's [min_length]/[max_length] (counted in
    characters) are [String.length]; the field constraints are checked
    before the [@validator] methods run. *)
Module Api.
Import Sessions.

Inductive validation_error :=
| TooShort
| TooLong
| ValueError (msg : string).

Definition dq : string := String (ascii_of_nat 34) EmptyString.

(** [str.isspace] on ASCII: \t \n \v \f \r, the separators \x1c-\x1f, and
    the space. *)
Definition py_isspace (c : ascii) : bool :=
  let n := nat_of_ascii c in
  (Nat.leb 9 n && Nat.leb n 13) || (Nat.leb 28 n && Nat.leb n 32).

Fixpoint lstrip (s : string) : string :=
  match s with
  | EmptyString => EmptyString
  | String c rest => if py_isspace c then lstrip rest else s
  end.

Fixpoint rstrip (s : string) : string :=
  match s with
  | EmptyString => EmptyString
  | String c rest =>
      let rest' := rstrip rest in
      if String.eqb rest' "" && py_isspace c then EmptyString else String c rest'
  end.

(** [str.strip()] *)
Definition strip (s : string) : string := rstrip (lstrip s).

(** [QueryRequest.query]: [Field(..., min_length=1, max_length=2000)], then
    [query_must_not_be_empty]. *)
Definition validate_query (v : string) : validation_error + string :=
  if Nat.ltb (String.length v) 1 then inl TooShort
  else if Nat.ltb 2000 (String.length v) then inl TooLong
  else if String.eqb v "" || String.eqb (strip v) ""
       then inl (ValueError "Query cannot be empty or contain only whitespace")
       else inr (strip v).

Definition session_prefix_error : validation_error :=
  ValueError ("Session ID must start with " ++ dq ++ "session_" ++ dq).

(** [QueryRequest.session_id]: [Optional[str]], [Field(None, max_length=100)],
    then [session_id_must_be_valid] ([if v and not v.startswith('session_')]). *)
Definition validate_query_session_id (v : option string) : validation_error + option string :=
  match v with
  | None => inr None
  | Some s =>
      if Nat.ltb 100 (String.length s) then inl TooLong
      else if negb (String.eqb s "") && negb (String.prefix "session_" s)
           then inl session_prefix_error
           else inr (Some s)
  end.

(** [ClearSessionRequest.session_id]: [Field(..., min_length=1,
    max_length=100)], then [session_id_must_be_valid]. *)
Definition validate_clear_session_id (v : string) : validation_error + string :=
  if Nat.ltb (String.length v) 1 then inl TooShort
  else if Nat.ltb 100 (String.length v) then inl TooLong
  else if negb (String.prefix "session_" v) then inl session_prefix_error
  else inr v.

(** The first lines of [query_documents]: [if not session_id:
    session_id = rag_system.session_manager.create_session()]. *)
Definition resolve_session (m : SessionManager) (sid : option string) (now : Z)
    : string * SessionManager :=
  match sid with
  | Some s => if String.eqb s "" then create_session m now else (s, m)
  | None => create_session m now
  end.

End Api.

Module Scenarios.
Import Orchestrator.

(** Mocked model answers used by the witnesses and counterexamples. *)

Definition C4_client : model_client :=
  scripted [inr (tool_request "toolu_1" "search_course_content");
            inl (APIError "overloaded");
            inr (text_response "Answer without tools.")].
Definition C4_base : request := initial_request "What is lesson 1 about?" None (Some demo_tools).
Definition C4_s : st := log_request st0 C4_base.

Definition C3_client : model_client :=
  scripted [inr (tool_request "toolu_1" "search_course_content"); inr (text_response "")].


Definition C1w_first : response :=
  {| stop_reason := "tool_use";
     content := [TextBlock "Let me search."; ToolUseBlock "toolu_1" "search_course_content" [("query", "lesson 1")]] |}.


Definition C5_client : model_client :=
  scripted [inr C1w_first; inr (text_response "Checked answer.")].

Definition C5w_client : model_client := scripted [inr (text_response "Paris.")].

Definition C6_client : model_client :=
  scripted [inr (tool_request "toolu_1" "search_course_content");
            inl (APIError "overloaded");
            inr {| stop_reason := "end_turn"; content := [] |}].




(** A store with one session, "session_2", holding one message. *)
Definition demo_store : Sessions.SessionManager :=
  Sessions.add_message (Sessions.new_manager 2 60) "session_2" "user" "Hi" 0.

End Scenarios.

Module OrchestratorFacts.
Import Orchestrator.

Section Facts.
Variable client : model_client.

Lemma run_tools_state tm bs s :
  requests (snd (run_tools tm bs s)) = requests s /\ rounds (snd (run_tools tm bs s)) = rounds s.
Proof.
  revert s; induction bs as [|b bs IH]; intros s; [done|].
  destruct b as [t|id name input]; simpl; [apply IH|].
  destruct (run_tools tm bs _) as [rs s2] eqn:E; simpl.
  specialize (IH (log_tool_call s (name, input))). rewrite E in IH. simpl in IH. done.
Qed.

Lemma single_round_facts resp base tm msgs n s m r s1 :
  execute_single_tool_round client resp base tm msgs n s = ((m, r), s1) ->
  rounds s1 = app (rounds s) [n] /\
  exists req, requests s1 = app (requests s) [req] /\ r = client (length (requests s)) req /\
    req_messages req = m /\ req_tools req = req_tools base /\
    req_system req = build_enhanced_system_prompt (req_system base) n.
Proof.
  unfold execute_single_tool_round, create.
  pose proof (run_tools_state tm (content resp) (log_round s n)) as [Hq Hr].
  destruct (run_tools tm (content resp) (log_round s n)) as [rs s0] eqn:E. simpl in *.
  intros H; injection H as <- <- <-. simpl.
  rewrite Hq, Hr. split; [done|]. eexists; repeat split; done.
Qed.

Lemma handle_tool_error_eq e n m base s :
  handle_tool_error client e n m base s =
  (match client (length (requests s)) (fallback_request m base) with
   | inr r => match first_text r with inr t => t | inl _ => tool_error_msg n e end
   | inl _ => tool_error_msg n e
   end, log_request s (fallback_request m base)).
Proof.
  unfold handle_tool_error, create.
  destruct (client _ _) as [x|r]; [done|]. destruct (first_text r); done.
Qed.

Lemma run_tools_outcomes tm bs s :
  fst (run_tools tm bs s) =
    imap (fun k '(id, name, input) =>
            {| tool_use_id := id;
               result_content := tool_outcome (tm (length (tool_calls s) + k) name input) |})
         (tool_uses bs) /\
  tool_calls (snd (run_tools tm bs s)) =
    app (tool_calls s) (map (fun '(_, name, input) => (name, input)) (tool_uses bs)).
Proof.
  revert s; induction bs as [|b bs IH]; intros s; simpl.
  - rewrite app_nil_r. done.
  - destruct b as [t|id name input]; [apply IH|].
    specialize (IH (log_tool_call s (name, input))).
    destruct (run_tools tm bs _) as [rs s2] eqn:E; simpl in *.
    destruct IH as [IH1 IH2]. split.
    + rewrite Nat.add_0_r. f_equal. rewrite IH1. apply imap_ext.
      intros k [[i n] a] _. simpl. rewrite length_app. simpl. do 3 f_equal. lia.
    + rewrite IH2, <- app_assoc. done.
Qed.

Lemma run_tools_as_text tm bs s :
  run_tools tm bs s = run_tools (as_text_tools tm) bs s.
Proof.
  revert s; induction bs as [|[t|id name input] bs IH]; intros s; simpl; [done|done|].
  rewrite IH. done.
Qed.

Lemma seq_loop_as_text fuel cr resp base tm msgs s :
  seq_loop client fuel cr resp base tm msgs s =
  seq_loop client fuel cr resp base (as_text_tools tm) msgs s.
Proof.
  revert cr resp msgs s; induction fuel as [|fuel IH]; intros cr resp msgs s; simpl; [done|].
  destruct (Nat.ltb cr MAX_ROUNDS); [|done].
  unfold execute_single_tool_round at 1 2. rewrite run_tools_as_text.
  destruct (run_tools _ _ _) as [rs s0]. destruct (create _ _ _) as [[e|r] s2]; [done|].
  destruct (should_continue_execution r _ _); [apply IH|done].
Qed.





End Facts.

End OrchestratorFacts.

Module OrchestratorClaims.
Import Orchestrator OrchestratorFacts.

(** C2: whatever the model answers, at most [MAX_ROUNDS] = 2 rounds are
    run (round 1, then possibly round 2); round 1 is entered only after an
    initial response with stop indicator "tool_use" and with a tool manager;
    round 2 only if the response to the round-1 model call has stop
    indicator "tool_use" and at least one tool_use block; and the model is
    called at most once per round besides the initial call and at most one
    fallback call. *)
Theorem rounds_bounded (client : model_client) query hist tools tmo s :
  let '(res, s') := generate_response client query hist tools tmo s in
  (rounds s' = rounds s \/ rounds s' = app (rounds s) [1] \/ rounds s' = app (rounds s) [1; 2]) /\
  length (requests s') <= length (requests s) + 2 + (length (rounds s') - length (rounds s)) /\
  (rounds s' <> rounds s ->
     tmo <> None /\
     exists r0, client (length (requests s)) (initial_request query hist tools) = inr r0 /\
                stop_reason r0 = "tool_use") /\
  (rounds s' = app (rounds s) [1; 2] ->
     exists req1 r1 rest,
       requests s' = app (requests s) (initial_request query hist tools :: req1 :: rest) /\
       client (length (requests s) + 1) req1 = inr r1 /\
       stop_reason r1 = "tool_use" /\ has_tool_use r1 = true).
Proof.
  unfold generate_response, create.
  set (api := initial_request query hist tools).
  destruct (client (length (requests s)) api) as [e|r0] eqn:Hr0.
  { simpl. split; [by left|]. split; [rewrite length_app; simpl; lia|].
    split; [done|]. intros H. exfalso. apply (f_equal length) in H. rewrite length_app in H. simpl in H. lia. }
  destruct tmo as [tm|].
  2:{ simpl. split; [by left|]. split; [rewrite length_app; simpl; lia|].
    split; [done|]. intros H. exfalso. apply (f_equal length) in H. rewrite length_app in H. simpl in H. lia. }
  destruct (String.eqb (stop_reason r0) "tool_use") eqn:Hstop.
  2:{ simpl. split; [by left|]. split; [rewrite length_app; simpl; lia|].
    split; [done|]. intros H. exfalso. apply (f_equal length) in H. rewrite length_app in H. simpl in H. lia. }
  unfold execute_sequential_tools. cbn -[execute_single_tool_round handle_tool_error].
  assert (Hne1 : app (rounds s) [1] <> rounds s).
  { intros H. apply (f_equal length) in H. rewrite length_app in H. simpl in H. lia. }
  assert (Hne12 : app (rounds s) [1] <> app (rounds s) [1; 2]).
  { intros H. apply app_inv_head in H. discriminate. }
  destruct (execute_single_tool_round client r0 api tm _ 1 (log_request s api))
    as [[m1 [e1|r1]] s2] eqn:E1;
    apply single_round_facts in E1 as [Hrd1 [req1 [Hrq1 [Hc1 _]]]]; simpl in Hrd1, Hrq1.
  - rewrite handle_tool_error_eq. simpl. rewrite Hrd1, Hrq1.
    split; [by right; left|]. split; [rewrite !length_app; simpl; lia|].
    split; [intros _; split; [done|]; exists r0; split; [done|]; by apply String.eqb_eq|].
    intros H. by exfalso.
  - destruct (has_tool_use r1 && String.eqb (stop_reason r1) "tool_use") eqn:Hcont.
    + apply andb_prop in Hcont as [Ht1 Hs1]. apply String.eqb_eq in Hs1.
      destruct (execute_single_tool_round client r1 api tm m1 2 s2)
        as [[m2 [e2|r2]] s3] eqn:E2;
        apply single_round_facts in E2 as [Hrd2 [req2 [Hrq2 [Hc2 _]]]];
        [rewrite handle_tool_error_eq|]; simpl; rewrite Hrd2, Hrd1;
        (try rewrite Hrq2); rewrite ?Hrq2, Hrq1;
        rewrite <- !app_assoc; simpl;
        (split; [by right; right|]);
        (split; [rewrite !length_app; simpl; lia|]);
        (split; [intros _; split; [done|]; exists r0; split; [done|]; by apply String.eqb_eq|]);
        intros _; eexists req1, r1, _; (split; [reflexivity|]);
        (split; [rewrite Hc1; simpl; rewrite length_app; simpl; f_equal; lia|]); done.
    + simpl. rewrite Hrd1, Hrq1.
      split; [by right; left|]. split; [rewrite !length_app; simpl; lia|].
      split; [intros _; split; [done|]; exists r0; split; [done|]; by apply String.eqb_eq|].
      intros H. by exfalso.
Qed.

(** C4: if the model call of a round raises, the loop stops and
    [_handle_tool_error] makes exactly one more model call: a request with
    the history accumulated by the failed round (which starts with the
    messages before the round and the assistant's tool-use turn) and no
    tools.  Its first text block is returned; if it raises (or has no text
    to read), the text "I encountered an error while executing tools in
    round <n>: <error>" is returned. *)
Theorem round_failure_fallback (client : model_client) fuel cr resp base tm msgs s msgs' e s1 :
  cr < MAX_ROUNDS ->
  execute_single_tool_round client resp base tm msgs (S cr) s = ((msgs', inl e), s1) ->
  seq_loop client (S fuel) cr resp base tm msgs s =
    (inr (match client (length (requests s1)) (fallback_request msgs' base) with
          | inr r => match first_text r with inr t => t | inl _ => tool_error_msg (S cr) e end
          | inl _ => tool_error_msg (S cr) e
          end),
     log_request s1 (fallback_request msgs' base)) /\
  req_tools (fallback_request msgs' base) = None /\
  req_messages (fallback_request msgs' base) = msgs' /\
  (exists rest, msgs' = app msgs ({| role := "assistant"; mcontent := MBlocks (content resp) |} :: rest)) /\
  (exists req, requests s1 = app (requests s) [req] /\ req_messages req = msgs').
Proof.
  intros Hlt E. simpl seq_loop.
  assert (Hb : Nat.ltb cr MAX_ROUNDS = true) by (apply Nat.ltb_lt; done). rewrite Hb, E.
  rewrite handle_tool_error_eq. split; [done|]. split; [done|]. split; [done|].
  pose proof E as E'. apply single_round_facts in E' as [_ [req [Hq [_ [Hm _]]]]].
  split; [|by exists req].
  revert E. unfold execute_single_tool_round, create.
  destruct (run_tools tm (content resp) (log_round s (S cr))) as [[|t ts] s0]; simpl;
    intros H; injection H as <- _ _; (try rewrite <- app_assoc); eexists; reflexivity.
Qed.

(** C3: a tool invocation that raises does not abort the round: the
    outcome recorded at its position is the text
    "Tool execution error: <message>" with the request's id, every tool_use
    block of the response is still executed in order, and the whole
    [generate_response] behaves exactly as if the tool had returned that text
    (no exception of a tool reaches the caller).  Unlike the claim, the answer
    is not guaranteed to be non-empty: it is whatever the model then answers. *)
Theorem tool_failure_as_text (client : model_client) (tm : tool_manager) bs s
    query hist tools s0 :
  (forall k id name input e,
     tool_uses bs !! k = Some (id, name, input) ->
     tm (length (tool_calls s) + k) name input = inl e ->
     fst (run_tools tm bs s) !! k =
       Some {| tool_use_id := id; result_content := "Tool execution error: " ++ exn_str e |}) /\
  tool_calls (snd (run_tools tm bs s)) =
    app (tool_calls s) (map (fun '(_, name, input) => (name, input)) (tool_uses bs)) /\
  generate_response client query hist tools (Some tm) s0 =
    generate_response client query hist tools (Some (as_text_tools tm)) s0.
Proof.
  destruct (run_tools_outcomes tm bs s) as [H1 H2]. split; [|split; [done|]].
  - intros k id name input e Hk Htm. rewrite H1, list_lookup_imap, Hk. simpl. rewrite Htm. done.
  - unfold generate_response. destruct (create client _ _) as [[e|r] s1]; [done|].
    destruct (String.eqb _ _); [|done]. apply seq_loop_as_text.
Qed.


(** C5 (as amended): when the initial response's stop indicator is not
    "tool_use", or no tool manager is given, exactly one model call is made
    and the text of the response's first block is returned verbatim.
    Whether tool schemas were supplied plays no part in this gate. *)
Theorem fast_path_single_call (client : model_client) query hist tools tmo s r t rest :
  client (length (requests s)) (initial_request query hist tools) = inr r ->
  (String.eqb (stop_reason r) "tool_use" = false \/ tmo = None) ->
  content r = TextBlock t :: rest ->
  generate_response client query hist tools tmo s =
    (inr t, log_request s (initial_request query hist tools)).
Proof.
  intros Hr Hgate Ht. unfold generate_response, create. rewrite Hr.
  assert (Hft : first_text r = inr t) by (unfold first_text; rewrite Ht; done).
  destruct tmo as [tm|]; [|by rewrite Hft].
  destruct Hgate as [Hs|Hn]; [|discriminate]. rewrite Hs, Hft. done.
Qed.

(** C6 (as amended): when the round loop ends on a response whose content
    list is empty, the fixed apology text is returned; when the fallback
    response of [_handle_tool_error] has an empty content list, the round's
    error text is returned instead of the apology. *)
Theorem empty_final_response (client : model_client) fuel cr resp base tm msgs s msgs' r s1
    e n m base' s' stop :
  (cr < MAX_ROUNDS ->
   execute_single_tool_round client resp base tm msgs (S cr) s = ((msgs', inr r), s1) ->
   content r = [] ->
   seq_loop client (S fuel) cr resp base tm msgs s = (inr APOLOGY, s1)) /\
  (client (length (requests s')) (fallback_request m base') = inr {| stop_reason := stop; content := [] |} ->
   fst (handle_tool_error client e n m base' s') = tool_error_msg n e).
Proof.
  split.
  - intros Hlt E Hr. simpl seq_loop.
    assert (Hb : Nat.ltb cr MAX_ROUNDS = true) by (apply Nat.ltb_lt; done). rewrite Hb, E.
    unfold should_continue_execution, has_tool_use. rewrite Hr. simpl.
    assert (Hx : forall b : bool, (if b then false else false) = false) by (intros []; done).
    rewrite Hx. unfold extract_final_response. rewrite Hr. done.
  - intros Hf. rewrite handle_tool_error_eq, Hf. done.
Qed.


End OrchestratorClaims.

Module OrchestratorWitnesses.
Import Orchestrator Scenarios OrchestratorClaims.

Lemma round_failure_fallback_witness :
  exists msgs' e s1,
    0 < MAX_ROUNDS /\
    execute_single_tool_round C4_client (tool_request "toolu_1" "search_course_content") C4_base
      echo_tools (req_messages C4_base) 1 C4_s = ((msgs', inl e), s1) /\
    seq_loop C4_client 1 0 (tool_request "toolu_1" "search_course_content") C4_base
      echo_tools (req_messages C4_base) C4_s
    = (inr "Answer without tools.", log_request s1 (fallback_request msgs' C4_base)).
Proof.
  do 3 eexists. split; [unfold MAX_ROUNDS; lia|]. split; [reflexivity|].
  destruct (round_failure_fallback C4_client 0 0 (tool_request "toolu_1" "search_course_content")
              C4_base echo_tools (req_messages C4_base) C4_s _ _ _ ltac:(unfold MAX_ROUNDS; lia)
              eq_refl) as [H _].
  rewrite H. reflexivity.
Defined.

(** C3 counterexample: the tool raises, the model then answers with an
    empty text, and [generate_response] returns the empty string. *)
Lemma tool_failure_empty_answer :
  let '(res, s') := generate_response C3_client "What is lesson 1 about?" None (Some demo_tools)
                      (Some (failing_tools "Tool execution failed")) st0 in
  res = inr "" /\
  tool_calls s' = [("search_course_content", [("query", "test")])] /\
  (exists req, requests s' !! 1 = Some req /\
     req_messages req !! 2 =
       Some {| role := "user";
               mcontent := MToolResults [{| tool_use_id := "toolu_1";
                                            result_content := "Tool execution error: Tool execution failed" |}] |}).
Proof. vm_compute. split; [done|]. split; [done|]. eexists; split; reflexivity. Qed.



(** C5 counterexample: no tool schemas are supplied, but the model's stop
    indicator is "tool_use" and a tool manager is given: the round loop is
    entered and two model calls are made. *)
Lemma no_schemas_still_loops :
  let '(res, s') := generate_response C5_client "Hi" None None (Some echo_tools) st0 in
  res = inr "Checked answer." /\ length (requests s') = 2 /\ rounds s' = [1] /\
  req_tools (initial_request "Hi" None None) = None.
Proof. vm_compute. repeat split. Qed.

Lemma fast_path_single_call_witness :
  C5w_client 0 (initial_request "Capital of France?" None None) = inr (text_response "Paris.") /\
  generate_response C5w_client "Capital of France?" None None (Some echo_tools) st0 =
    (inr "Paris.", log_request st0 (initial_request "Capital of France?" None None)).
Proof.
  split; [reflexivity|].
  exact (fast_path_single_call C5w_client "Capital of France?" None None (Some echo_tools) st0
           (text_response "Paris.") "Paris." [] eq_refl (or_introl eq_refl) eq_refl).
Defined.

(** C6 counterexample: the round-1 model call raises and the fallback
    response has no content: the round error text is returned, not the
    apology. *)
Lemma empty_fallback_not_apology :
  fst (generate_response C6_client "What is lesson 1 about?" None (Some demo_tools)
         (Some echo_tools) st0)
  = inr "I encountered an error while executing tools in round 1: overloaded" /\
  "I encountered an error while executing tools in round 1: overloaded" <> APOLOGY.
Proof. split; [reflexivity|]. discriminate. Qed.



End OrchestratorWitnesses.

Module OrchestratorExtras.
Import Orchestrator OrchestratorFacts.

Section Shape.
Variable client : model_client.

Lemma single_round_extends resp base tm msgs n s m r s1 :
  execute_single_tool_round client resp base tm msgs n s = ((m, r), s1) ->
  msgs `prefix_of` m.
Proof.
  unfold execute_single_tool_round, create.
  destruct (run_tools tm (content resp) (log_round s n)) as [rs s0].
  intros H; injection H as <- _ _.
  destruct rs; [|rewrite <- app_assoc]; apply prefix_app_r; reflexivity.
Qed.

Lemma round_system_ok base cr :
  Nat.ltb cr MAX_ROUNDS = true ->
  build_enhanced_system_prompt (req_system base) (S cr) = req_system base \/
  build_enhanced_system_prompt (req_system base) (S cr) =
    build_enhanced_system_prompt (req_system base) 2.
Proof.
  intros H. apply Nat.ltb_lt in H. unfold MAX_ROUNDS in H.
  destruct cr as [|[|cr]]; [left; reflexivity|right; reflexivity|lia].
Qed.

Lemma seq_loop_shape fuel cr resp base tm msgs s :
  let '(_, s') := seq_loop client fuel cr resp base tm msgs s in
  exists new, requests s' = app (requests s) new /\
    Sorted (fun a b => a `prefix_of` b) (msgs :: map req_messages new) /\
    Forall (fun req => msgs `prefix_of` req_messages req /\ request_ok base req) new.
Proof.
  revert cr resp msgs s; induction fuel as [|fuel IH]; intros cr resp msgs s; simpl.
  { exists []. rewrite app_nil_r. split; [done|]. split; [repeat constructor|constructor]. }
  destruct (Nat.ltb cr MAX_ROUNDS) eqn:Hlt.
  2:{ exists []. rewrite app_nil_r. split; [done|]. split; [repeat constructor|constructor]. }
  destruct (execute_single_tool_round client resp base tm msgs (S cr) s) as [[m [e|r]] s1] eqn:E;
    pose proof (single_round_extends _ _ _ _ _ _ _ _ _ E) as Hpre;
    apply single_round_facts in E as [_ [req [Hs1 [_ [Hm [Ht Hsys]]]]]].
  - rewrite handle_tool_error_eq. simpl.
    exists [req; fallback_request m base]. simpl. rewrite Hs1, <- app_assoc. split; [done|].
    rewrite Hm. split.
    + apply Sorted_cons; [apply Sorted_cons; [apply Sorted_cons; constructor|]|].
      * constructor. reflexivity.
      * constructor. exact Hpre.
    + constructor; [|constructor; [|constructor]].
      * rewrite <- Hm in Hpre. split; [exact Hpre|]. split; [left; exact Ht|].
        rewrite Hsys. apply round_system_ok. exact Hlt.
      * split; [exact Hpre|]. split; [right; reflexivity|left; reflexivity].
  - destruct (should_continue_execution r (S cr) MAX_ROUNDS).
    + specialize (IH (S cr) r m s1).
      destruct (seq_loop client fuel (S cr) r base tm m s1) as [res s2].
      destruct IH as [new [Hs2 [Hsort Hall]]].
      exists (req :: new). rewrite Hs2, Hs1, <- app_assoc. split; [done|]. split.
      * simpl. rewrite Hm. constructor; [exact Hsort|constructor; exact Hpre].
      * constructor.
        { rewrite Hm. split; [done|]. split; [left; done|]. rewrite Hsys. apply round_system_ok. done. }
        eapply Forall_impl; [exact Hall|]. simpl. intros x [Hx Hok]. split; [|done].
        etrans; [exact Hpre|exact Hx].
    + simpl. exists [req]. rewrite Hs1. split; [done|]. subst m. split.
      * simpl. apply Sorted_cons; [apply Sorted_cons; constructor|]. constructor. exact Hpre.
      * constructor; [|constructor]. split; [exact Hpre|].
        split; [left; exact Ht|]. rewrite Hsys. apply round_system_ok. exact Hlt.
Qed.

Lemma generate_response_shape query hist tools tmo s :
  let api := initial_request query hist tools in
  let '(_, s') := generate_response client query hist tools tmo s in
  exists new, requests s' = app (requests s) (api :: new) /\
    Sorted (fun a b => a `prefix_of` b) (map req_messages (api :: new)) /\
    Forall (fun req => req_messages api `prefix_of` req_messages req /\ request_ok api req)
           (api :: new).
Proof.
  intros api. unfold generate_response, create. fold api.
  assert (Hapi : req_messages api `prefix_of` req_messages api /\ request_ok api api)
    by (split; [reflexivity|split; left; done]).
  assert (Hone : forall s1, requests s1 = app (requests s) [api] ->
            exists new, requests s1 = app (requests s) (api :: new) /\
              Sorted (fun a b => a `prefix_of` b) (map req_messages (api :: new)) /\
              Forall (fun req => req_messages api `prefix_of` req_messages req /\ request_ok api req)
                     (api :: new)).
  { intros s1 Hs1. exists []. split; [done|]. split; [repeat constructor|repeat constructor; apply Hapi]. }
  destruct (client (length (requests s)) api) as [e|r]; [apply Hone; done|].
  destruct tmo as [tm|]; [|apply Hone; done].
  destruct (String.eqb (stop_reason r) "tool_use"); [|apply Hone; done].
  unfold execute_sequential_tools.
  pose proof (seq_loop_shape MAX_ROUNDS 0 r api tm (req_messages api) (log_request s api)) as H.
  destruct (seq_loop client MAX_ROUNDS 0 r api tm (req_messages api) (log_request s api)) as [res s2].
  destruct H as [new [Hs2 [Hsort Hall]]].
  exists new. rewrite Hs2. simpl. rewrite <- app_assoc. split; [done|]. split; [exact Hsort|].
  constructor; [exact Hapi|exact Hall].
Qed.

End Shape.

(** Every request one [generate_response] call sends to the model (the
    initial call, the round calls, the fallback call) starts with the user's
    query message; each request's message list extends the previous one's;
    each request advertises the caller's tools or none; and its system prompt
    is the initial one or the round-2 enhancement of it. *)
Theorem requests_shape (client : model_client) query hist tools tmo s :
  let api := initial_request query hist tools in
  let '(_, s') := generate_response client query hist tools tmo s in
  exists new, requests s' = app (requests s) (api :: new) /\
    Sorted (fun a b => a `prefix_of` b) (map req_messages (api :: new)) /\
    Forall (fun req =>
              (exists rest, req_messages req = {| role := "user"; mcontent := MText query |} :: rest) /\
              (req_tools req = req_tools api \/ req_tools req = None) /\
              (req_system req = req_system api \/
               req_system req = build_enhanced_system_prompt (req_system api) 2))
           (api :: new).
Proof.
  intros api. pose proof (generate_response_shape client query hist tools tmo s) as H.
  simpl in H. fold api in H.
  destruct (generate_response client query hist tools tmo s) as [res s'].
  destruct H as [new [Hs [Hsort Hall]]]. exists new. split; [exact Hs|]. split; [exact Hsort|].
  eapply Forall_impl; [exact Hall|]. intros req [[k Hk] Hok]. split; [|exact Hok].
  exists k. rewrite Hk. reflexivity.
Qed.

(** Without tool schemas ([tools] absent or an empty list) no request of a
    [generate_response] call advertises tools, whatever the model answers. *)
Theorem no_schemas_no_tools (client : model_client) query hist tools tmo s :
  tools = None \/ tools = Some [] ->
  let '(_, s') := generate_response client query hist tools tmo s in
  exists new, requests s' = app (requests s) new /\ new <> [] /\
    Forall (fun req => req_tools req = None) new.
Proof.
  intros Htools. pose proof (generate_response_shape client query hist tools tmo s) as H.
  simpl in H.
  destruct (generate_response client query hist tools tmo s) as [res s'].
  destruct H as [new [Hs [_ Hall]]]. exists (initial_request query hist tools :: new).
  split; [exact Hs|]. split; [discriminate|].
  eapply Forall_impl; [exact Hall|]. intros req [_ [[Ht|Ht] _]]; [|exact Ht].
  rewrite Ht. destruct Htools as [->| ->]; reflexivity.
Qed.

End OrchestratorExtras.

Module OrchestratorExtraWitnesses.
Import Orchestrator Scenarios OrchestratorExtras.

Lemma no_schemas_no_tools_witness :
  (None = (None : option (list tool_schema)) \/ None = Some ([] : list tool_schema)) /\
  let '(_, s') := generate_response C5_client "What is lesson 1 about?" None None (Some echo_tools) st0 in
  exists new, requests s' = app (requests st0) new /\ new <> [] /\
    Forall (fun req => req_tools req = None) new.
Proof.
  split; [left; reflexivity|].
  apply (no_schemas_no_tools C5_client "What is lesson 1 about?" None None (Some echo_tools) st0).
  left; reflexivity.
Defined.

End OrchestratorExtraWitnesses.

Module SessionClaims.
Import Sessions.

Lemma session_name_inj a b : session_name a = session_name b -> a = b.
Proof.
  unfold session_name. simpl. intros H. repeat (injection H as H).
  apply (inj pretty). exact H.
Qed.

Lemma counter_add_message m sid r c now :
  session_counter (add_message m sid r c now) = session_counter m.
Proof. done. Qed.

Lemma counter_get_history m sid now :
  session_counter (snd (get_conversation_history m sid now)) = session_counter m.
Proof.
  unfold get_conversation_history.
  destruct sid as [id|]; [|done]. destruct (String.eqb id ""); [done|].
  destruct (sessions m !! id) as [si|]; [|done]. destruct (messages si); done.
Qed.

Lemma trim_spec {A} (k : Z) (l : list A) :
  (1 <= k)%Z ->
  (if (k * 2 <? Z.of_nat (length l))%Z then py_slice_from l (- k * 2)%Z else l)
    = drop (length l - Z.to_nat (2 * k)) l /\
  (Z.of_nat (length (if (k * 2 <? Z.of_nat (length l))%Z then py_slice_from l (- k * 2)%Z else l))
     <= 2 * k)%Z.
Proof.
  intros Hk. destruct (k * 2 <? Z.of_nat (length l))%Z eqn:Hlt.
  - apply Z.ltb_lt in Hlt. unfold py_slice_from.
    assert (Hneg : (- k * 2 <? 0)%Z = true) by (apply Z.ltb_lt; lia). rewrite Hneg.
    replace (Z.to_nat (Z.max 0 (Z.of_nat (length l) + - k * 2)))
      with (length l - Z.to_nat (2 * k)) by lia.
    split; [done|]. rewrite length_drop. lia.
  - apply Z.ltb_ge in Hlt.
    replace (length l - Z.to_nat (2 * k)) with 0 by lia.
    split; [done|]. lia.
Qed.

(** Trimming as the code intends it, for [max_history >= 1]: after
    [add_message] the session holds the last [2 * max_history] messages of
    its previous list extended with the new one (all of them when fewer). *)
Lemma add_message_trims (m : SessionManager) sid r c now :
  (1 <= max_history m)%Z ->
  let old := match sessions m !! sid with Some si => messages si | None => [] end in
  let all := app old [{| msg_role := r; msg_content := c; msg_timestamp := now |}] in
  exists si, sessions (add_message m sid r c now) !! sid = Some si /\
    messages si = drop (length all - Z.to_nat (2 * max_history m)) all /\
    (Z.of_nat (length (messages si)) <= 2 * max_history m)%Z.
Proof.
  intros Hm old all. unfold add_message. simpl.
  eexists. rewrite lookup_insert_eq. split; [reflexivity|]. simpl.
  assert (Hall : app (messages match sessions m !! sid with
                               | Some si => si | None => fresh_session sid now end)
                     [{| msg_role := r; msg_content := c; msg_timestamp := now |}] = all)
    by (unfold all, old; destruct (sessions m !! sid); done).
  rewrite Hall. apply trim_spec. exact Hm.
Qed.

(** C7 (code defect): with [max_history = 0] the slice
    [messages[-0:]] is the whole list, so nothing is trimmed and three
    [add_message] calls leave three messages, above [2 * max_history = 0]. *)
Theorem max_history_zero_no_trim :
  let m := add_message (add_message (add_message (new_manager 0 60) "session_1" "user" "a" 0)
                          "session_1" "assistant" "b" 1) "session_1" "user" "c" 2 in
  option_map (fun si => length (messages si)) (sessions m !! "session_1") = Some 3 /\
  (2 * max_history m < 3)%Z.
Proof. vm_compute. split; reflexivity. Qed.

(** C8 (as amended): [get_conversation_history] returns [None], leaving
    the store unchanged, exactly when the id is [None], the empty string,
    unknown, or names a session without messages; otherwise it sets the
    session's last activity to [now] and returns the newline-joined lines
    "<role.title()>: <content>" of its messages, oldest first (so "User: ..."
    and "Assistant: ..." for the two roles the application writes). *)
Theorem get_history_spec (m : SessionManager) (sid : option string) (now : Z) :
  (fst (get_conversation_history m sid now) = None <->
     sid = None \/ sid = Some "" \/
     exists id, sid = Some id /\
       (sessions m !! id = None \/ exists si, sessions m !! id = Some si /\ messages si = [])) /\
  (fst (get_conversation_history m sid now) = None -> snd (get_conversation_history m sid now) = m) /\
  (forall id si, sid = Some id -> id <> "" -> sessions m !! id = Some si -> messages si <> [] ->
     get_conversation_history m sid now =
       (Some (join nl (map format_message (messages si))),
        set_sessions m (<[id := {| session_id := session_id si; messages := messages si;
                                   created_at := created_at si; last_activity := now |}]>
                        (sessions m)))) /\
  (forall c t, format_message {| msg_role := "user"; msg_content := c; msg_timestamp := t |}
               = "User: " ++ c) /\
  (forall c t, format_message {| msg_role := "assistant"; msg_content := c; msg_timestamp := t |}
               = "Assistant: " ++ c).
Proof.
  split; [|split; [|split; [|split]]].
  - unfold get_conversation_history. destruct sid as [id|].
    2:{ split; [intros _; by left|done]. }
    destruct (String.eqb id "") eqn:He.
    { apply String.eqb_eq in He. subst id. split; [intros _; by right; left|done]. }
    apply String.eqb_neq in He.
    destruct (sessions m !! id) as [si|] eqn:Hs.
    2:{ split; [intros _; right; right; exists id; by split; [|left]|done]. }
    destruct (messages si) as [|x xs] eqn:Hm.
    { split; [intros _; right; right; exists id; split; [done|right]; by exists si|done]. }
    simpl. split; [discriminate|].
    intros [H|[H|[id' [H [H'|[si' [H' Hm']]]]]]]; try discriminate.
    + injection H as ->. done.
    + injection H as <-. rewrite Hs in H'. congruence.
    + injection H as <-. rewrite Hs in H'. injection H' as <-. congruence.
  - unfold get_conversation_history. destruct sid as [id|]; [|done].
    destruct (String.eqb id ""); [done|]. destruct (sessions m !! id) as [si|]; [|done].
    destruct (messages si); done.
  - intros id si -> Hne Hs Hm. unfold get_conversation_history.
    apply String.eqb_neq in Hne. rewrite Hne, Hs.
    destruct (messages si) eqn:Hm'; [done|]. reflexivity.
  - intros c t. reflexivity.
  - intros c t. reflexivity.
Qed.

(** C9 (as amended): over any interleaving of store operations (creation,
    [add_message] and [add_exchange] with caller-chosen ids, history reads,
    [clear_session], cleanup sweeps), the ids minted by [create_session] are
    "session_<n>" for consecutive, strictly increasing counters [n] starting
    after the counter's initial value; they are pairwise distinct and none
    repeats an id minted before.  [create_session] does not consult the
    store, so a minted id may name a session a caller created through
    [add_message] (see the counterexample). *)
Theorem minted_ids_fresh (m : SessionManager) (ops : list (op * Z)) :
  let '(ids, m') := run_ops m ops in
  ids = map session_name (seq (S (session_counter m)) (length ids)) /\
  session_counter m' = session_counter m + length ids /\
  NoDup ids /\
  (forall c, c <= session_counter m -> session_name c ∉ ids).
Proof.
  assert (Hrun : forall ops m, let '(ids, m') := run_ops m ops in
            ids = map session_name (seq (S (session_counter m)) (length ids)) /\
            session_counter m' = session_counter m + length ids).
  { clear. induction ops as [|[o now] ops IH]; intros m; simpl; [split; [done|lia]|].
    destruct o as [| sid r c | sid u a | sid | sid |].
    - destruct (run_ops _ ops) as [ids m2] eqn:E. specialize (IH (snd (create_session m now))).
      simpl in IH. rewrite E in IH. destruct IH as [IH1 IH2]. simpl.
      split; [rewrite IH1 at 1; done|lia].
    - exact (IH _).
    - exact (IH _).
    - specialize (IH (snd (get_conversation_history m sid now))).
      rewrite counter_get_history in IH. exact IH.
    - exact (IH _).
    - exact (IH _). }
  specialize (Hrun ops m). destruct (run_ops m ops) as [ids m'].
  destruct Hrun as [H1 H2]. split; [done|]. split; [done|]. split.
  - rewrite H1. apply NoDup_ListNoDup, Injective_map_NoDup; [exact session_name_inj|apply seq_NoDup].
  - intros c Hc Hin. rewrite H1 in Hin. apply list_elem_of_In, in_map_iff in Hin as [c' [Heq Hin]].
    apply session_name_inj in Heq. subst c'. apply in_seq in Hin. lia.
Qed.

End SessionClaims.

Module SessionWitnesses.
Import Sessions.

(** C8 counterexample: [add_message] stores a session under the id "", but
    [get_conversation_history] answers [None] for it ([not session_id]). *)
Lemma empty_id_history_none :
  let m := add_message (new_manager 5 60) "" "user" "Hello" 0 in
  fst (get_conversation_history m (Some "") 1) = None /\
  option_map (fun si => length (messages si)) (sessions m !! "") = Some 1.
Proof. vm_compute. split; reflexivity. Qed.

(** C9 counterexample: a caller adds a message under "session_1"; the next
    [create_session] mints "session_1" again and replaces that session by an
    empty one. *)
Lemma create_reuses_caller_id :
  let m1 := add_message (new_manager 5 60) "session_1" "user" "Hello" 0 in
  let '(sid, m2) := create_session m1 1 in
  sid = "session_1" /\
  option_map (fun si => length (messages si)) (sessions m1 !! sid) = Some 1 /\
  option_map (fun si => length (messages si)) (sessions m2 !! sid) = Some 0.
Proof. vm_compute. split; [reflexivity|]. split; reflexivity. Qed.

End SessionWitnesses.

Module SessionExtras.
Import Sessions SessionClaims.

Lemma last_drop_lt {A} (j : nat) (l : list A) :
  j < length l -> last (drop j l) = last l.
Proof.
  intros Hj. rewrite <- (take_drop j l) at 2. rewrite last_app.
  destruct (last (drop j l)) eqn:E; [done|].
  apply last_None in E. apply (f_equal length) in E. rewrite length_drop in E. simpl in E. lia.
Qed.

(** The trimming step of [add_message] for [max_history >= 0]: a suffix of
    the list that keeps at least its last element. *)
Lemma trim_drop {A} (k : Z) (l : list A) :
  (0 <= k)%Z ->
  exists j, (if (k * 2 <? Z.of_nat (length l))%Z then py_slice_from l (- k * 2)%Z else l) = drop j l /\
            (j = 0 \/ j < length l).
Proof.
  intros Hk. destruct (Z.eq_dec k 0%Z) as [->|Hk1].
  - exists 0. split; [|by left]. destruct (0 * 2 <? Z.of_nat (length l))%Z; [|done].
    unfold py_slice_from. simpl. rewrite Z.min_l by lia. done.
  - destruct (trim_spec k l) as [Heq _]; [lia|]. rewrite Heq.
    exists (length l - Z.to_nat (2 * k)). split; [done|].
    destruct (length l) eqn:Hl; [by left|]. right. lia.
Qed.

Lemma msgs_total_delete ss i :
  msgs_total (delete i ss) + (match ss !! i with Some si => length (messages si) | None => 0 end)
  = msgs_total ss.
Proof.
  unfold msgs_total. destruct (ss !! i) as [si|] eqn:E.
  - rewrite <- (map_to_list_delete ss i si E). simpl. lia.
  - rewrite delete_id by exact E. lia.
Qed.

Lemma add_message_other m sid r c now id :
  id <> sid -> sessions (add_message m sid r c now) !! id = sessions m !! id.
Proof. intros Hne. unfold add_message. simpl. apply lookup_insert_ne. congruence. Qed.

Lemma cleanup_lookup m now id si :
  sessions (cleanup_expired_sessions m now) !! id = Some si <->
  sessions m !! id = Some si /\ (now - last_activity si <= session_timeout m)%Z.
Proof.
  unfold cleanup_expired_sessions. simpl. rewrite map_lookup_filter_Some. simpl.
  split; intros [H1 H2]; (split; [exact H1|lia]).
Qed.

Lemma cleanup_lookup_None m now id :
  sessions (cleanup_expired_sessions m now) !! id = None <->
  sessions m !! id = None \/
  exists si, sessions m !! id = Some si /\ (now - last_activity si > session_timeout m)%Z.
Proof.
  unfold cleanup_expired_sessions. simpl. rewrite map_lookup_filter_None. split.
  - intros [H|H]; [by left|]. destruct (sessions m !! id) as [si|] eqn:E; [|by left].
    right. exists si. split; [done|]. specialize (H si eq_refl). lia.
  - intros [H|[si [H1 H2]]]; [by left|]. right. intros si' E. rewrite H1 in E.
    injection E as <-. lia.
Qed.

(** Trimming for [max_history >= 0]: the session written by [add_message]
    keeps the new message as its last one, holds a suffix of its previous
    messages followed by the new one, keeps its id and creation time (a new
    session gets [now]), and its last activity becomes [now].  With a
    negative [max_history] the slice can drop the new message itself. *)
Theorem add_message_keeps_newest (m : SessionManager) sid r c now :
  (0 <= max_history m)%Z ->
  let old := match sessions m !! sid with Some si => si | None => fresh_session sid now end in
  let msg := {| msg_role := r; msg_content := c; msg_timestamp := now |} in
  exists si, sessions (add_message m sid r c now) !! sid = Some si /\
    last (messages si) = Some msg /\
    messages si `suffix_of` app (messages old) [msg] /\
    session_id si = session_id old /\ created_at si = created_at old /\ last_activity si = now.
Proof.
  intros Hm old msg. unfold add_message. simpl. fold old. fold msg.
  eexists. rewrite lookup_insert_eq. split; [reflexivity|]. simpl.
  destruct (trim_drop (max_history m) (app (messages old) [msg]) Hm) as [j [-> Hj]].
  split; [|split; [apply suffix_drop|done]].
  destruct Hj as [->|Hj]; [apply last_snoc|]. rewrite last_drop_lt by exact Hj. apply last_snoc.
Qed.

(** For [max_history >= 1] the session written by [add_message] holds the
    last [2 * max_history] messages of its previous list extended with the
    new one (all of them when there are fewer). *)
Theorem add_message_window (m : SessionManager) sid r c now :
  (1 <= max_history m)%Z ->
  let old := match sessions m !! sid with Some si => messages si | None => [] end in
  let all := app old [{| msg_role := r; msg_content := c; msg_timestamp := now |}] in
  exists si, sessions (add_message m sid r c now) !! sid = Some si /\
    messages si = drop (length all - Z.to_nat (2 * max_history m)) all /\
    (Z.of_nat (length (messages si)) <= 2 * max_history m)%Z.
Proof. intros Hm. apply add_message_trims. exact Hm. Qed.

(** The store operations on one session id leave every other session
    as it was: [add_message], [add_exchange], a history read, [clear_session],
    and [create_session] for every id other than the one it mints. *)
Theorem other_sessions_untouched (m : SessionManager) sid id r c u a now :
  id <> sid ->
  sessions (add_message m sid r c now) !! id = sessions m !! id /\
  sessions (add_exchange m sid u a now) !! id = sessions m !! id /\
  sessions (snd (get_conversation_history m (Some sid) now)) !! id = sessions m !! id /\
  sessions (clear_session m sid) !! id = sessions m !! id /\
  (id <> fst (create_session m now) -> sessions (snd (create_session m now)) !! id = sessions m !! id).
Proof.
  intros Hne. split; [|split; [|split; [|split]]].
  - by apply add_message_other.
  - unfold add_exchange. rewrite !add_message_other by exact Hne. done.
  - unfold get_conversation_history. destruct (String.eqb sid ""); [done|].
    destruct (sessions m !! sid) as [si|]; [|done]. destruct (messages si); [done|].
    simpl. apply lookup_insert_ne. congruence.
  - unfold clear_session. simpl. apply lookup_delete_ne. congruence.
  - intros Hne'. simpl. apply lookup_insert_ne. simpl in Hne'. congruence.
Qed.

(** [clear_session] removes the session; on an unknown id it changes
    nothing; clearing twice is clearing once; the counter is untouched. *)
Theorem clear_session_spec (m : SessionManager) sid :
  sessions (clear_session m sid) !! sid = None /\
  (sessions m !! sid = None -> clear_session m sid = m) /\
  clear_session (clear_session m sid) sid = clear_session m sid /\
  session_counter (clear_session m sid) = session_counter m.
Proof.
  split; [|split; [|split]].
  - apply lookup_delete_eq.
  - intros H. destruct m as [mh to ss cnt]. unfold clear_session, set_sessions. simpl in *.
    rewrite delete_id by exact H. reflexivity.
  - unfold clear_session, set_sessions. simpl.
    rewrite (delete_id (delete sid (sessions m))) by apply lookup_delete_eq. reflexivity.
  - reflexivity.
Qed.

(** A cleanup sweep at [now] keeps, unchanged, exactly the sessions idle for
    at most [session_timeout], removes the others, leaves the settings and
    the counter alone, and a second sweep at the same time changes
    nothing. *)
Theorem cleanup_spec (m : SessionManager) now :
  (forall id si, sessions (cleanup_expired_sessions m now) !! id = Some si <->
     sessions m !! id = Some si /\ (now - last_activity si <= session_timeout m)%Z) /\
  max_history (cleanup_expired_sessions m now) = max_history m /\
  session_timeout (cleanup_expired_sessions m now) = session_timeout m /\
  session_counter (cleanup_expired_sessions m now) = session_counter m /\
  cleanup_expired_sessions (cleanup_expired_sessions m now) now = cleanup_expired_sessions m now.
Proof.
  split; [intros id si; apply cleanup_lookup|]. split; [done|]. split; [done|]. split; [done|].
  unfold cleanup_expired_sessions at 1. unfold set_sessions at 1. simpl.
  unfold cleanup_expired_sessions, set_sessions. f_equal.
  apply map_filter_strong_ext. intros i si. rewrite map_lookup_filter_Some. naive_solver.
Qed.

(** Activity and expiry: a session written by [add_message] at time [t]
    survives a cleanup sweep at [now], unchanged, iff [now - t] does not
    exceed the timeout; reading the history of a session with messages at
    [t] likewise keeps it through a sweep at [now] with
    [now - t <= session_timeout]. *)
Theorem activity_and_expiry (m : SessionManager) sid r c t now :
  ((now - t <= session_timeout m)%Z ->
     sessions (cleanup_expired_sessions (add_message m sid r c t) now) !! sid
     = sessions (add_message m sid r c t) !! sid) /\
  ((now - t > session_timeout m)%Z ->
     sessions (cleanup_expired_sessions (add_message m sid r c t) now) !! sid = None) /\
  (forall si, sid <> "" -> sessions m !! sid = Some si -> messages si <> [] ->
     (now - t <= session_timeout m)%Z ->
     exists si', sessions (cleanup_expired_sessions (snd (get_conversation_history m (Some sid) t)) now)
                   !! sid = Some si' /\ messages si' = messages si).
Proof.
  assert (Hadd : exists si, sessions (add_message m sid r c t) !! sid = Some si /\ last_activity si = t)
    by (unfold add_message; simpl; rewrite lookup_insert_eq; eexists; split; reflexivity).
  destruct Hadd as [si [Hsi Hlast]].
  split; [|split].
  - intros Hle. rewrite Hsi. apply cleanup_lookup. split; [exact Hsi|]. simpl. lia.
  - intros Hgt. apply cleanup_lookup_None. right. exists si. split; [exact Hsi|]. simpl. lia.
  - intros si0 Hne Hs Hm Hle. unfold get_conversation_history.
    apply String.eqb_neq in Hne. rewrite Hne, Hs.
    destruct (messages si0) as [|x xs] eqn:Em; [done|].
    eexists. split.
    + apply cleanup_lookup. split; [apply lookup_insert_eq|]. simpl. lia.
    + simpl. rewrite ?Em. reflexivity.
Qed.

(** [create_session] stores an empty session under the new id, created and
    last active at [now]; reading its history returns [None] and changes
    nothing, so such a read does not refresh it: unless a message is added,
    the session is removed by any sweep more than [session_timeout] after
    its creation. *)
Theorem create_then_read (m : SessionManager) t0 t1 now :
  let '(sid, m1) := create_session m t0 in
  sessions m1 !! sid = Some (fresh_session sid t0) /\
  session_counter m1 = S (session_counter m) /\
  get_conversation_history m1 (Some sid) t1 = (None, m1) /\
  ((now - t0 > session_timeout m)%Z -> sessions (cleanup_expired_sessions m1 now) !! sid = None).
Proof.
  destruct (create_session m t0) as [sid m1] eqn:E. unfold create_session in E.
  injection E as <- <-.
  assert (Hs : sessions {| max_history := max_history m; session_timeout := session_timeout m;
                           sessions := <[session_name (S (session_counter m)) :=
                                         fresh_session (session_name (S (session_counter m))) t0]>
                                       (sessions m);
                           session_counter := S (session_counter m) |}
                 !! session_name (S (session_counter m))
               = Some (fresh_session (session_name (S (session_counter m))) t0))
    by apply lookup_insert_eq.
  split; [exact Hs|]. split; [reflexivity|]. split.
  - unfold get_conversation_history. rewrite Hs. reflexivity.
  - intros Hgt. apply cleanup_lookup_None. right. eexists. split; [exact Hs|]. simpl. lia.
Qed.

(** Round trip: [add_exchange] into a session id that is not empty and not
    yet stored, with [max_history >= 1], followed by a history read, gives
    the two lines "User: ..." and "Assistant: ...". *)
Theorem exchange_then_history (m : SessionManager) sid u a t t' :
  sessions m !! sid = None -> sid <> "" -> (1 <= max_history m)%Z ->
  fst (get_conversation_history (add_exchange m sid u a t) (Some sid) t')
  = Some (("User: " ++ u) ++ nl ++ ("Assistant: " ++ a)).
Proof.
  intros Hnone Hne Hm. unfold add_exchange, add_message. simpl. rewrite Hnone. simpl.
  assert (H1 : (max_history m * 2 <? Z.of_nat 1)%Z = false) by (apply Z.ltb_ge; lia).
  assert (H2 : (max_history m * 2 <? Z.of_nat 2)%Z = false) by (apply Z.ltb_ge; lia).
  apply String.eqb_neq in Hne. rewrite Hne, H1, !lookup_insert_eq. simpl.
  rewrite H2. reflexivity.
Qed.

(** [get_session_stats]: [add_message] adds one session exactly when the
    id is new; [clear_session] removes one session and its messages when the
    id is stored, and nothing otherwise; [create_session] adds one session
    unless the minted id is already stored. *)
Theorem stats_effects (m : SessionManager) sid r c now :
  total_sessions (get_session_stats (add_message m sid r c now))
    = total_sessions (get_session_stats m) + (match sessions m !! sid with Some _ => 0 | None => 1 end) /\
  total_sessions (get_session_stats (clear_session m sid))
    + (match sessions m !! sid with Some _ => 1 | None => 0 end) = total_sessions (get_session_stats m) /\
  total_messages (get_session_stats (clear_session m sid))
    + (match sessions m !! sid with Some si => length (messages si) | None => 0 end)
    = total_messages (get_session_stats m) /\
  total_sessions (get_session_stats (snd (create_session m now)))
    = total_sessions (get_session_stats m)
      + (match sessions m !! fst (create_session m now) with Some _ => 0 | None => 1 end).
Proof.
  unfold get_session_stats. cbn [total_sessions total_messages].
  split; [|split; [|split]].
  - unfold add_message. cbn [sessions set_sessions].
    rewrite map_size_insert. destruct (sessions m !! sid); simpl; lia.
  - unfold clear_session. cbn [sessions set_sessions].
    rewrite map_size_delete. destruct (sessions m !! sid) eqn:E; simpl; [|lia].
    assert (size (sessions m) <> 0); [|lia].
    intros Hz. apply map_size_empty_inv in Hz. rewrite Hz, lookup_empty in E. discriminate E.
  - exact (msgs_total_delete (sessions m) sid).
  - unfold create_session. cbn [fst snd sessions].
    rewrite map_size_insert. destruct (sessions m !! _); simpl; lia.
Qed.

End SessionExtras.

Module ApiExtras.
Import Sessions Api.

Lemma lstrip_head s ch rest : lstrip s = String ch rest -> py_isspace ch = false.
Proof.
  induction s as [|c s IH]; simpl; [discriminate|].
  destruct (py_isspace c) eqn:E; [exact IH|]. intros H; injection H as <- _. exact E.
Qed.

Lemma rstrip_cons_nonspace ch r : py_isspace ch = false -> rstrip (String ch r) = String ch (rstrip r).
Proof. intros H. simpl. rewrite H, andb_false_r. reflexivity. Qed.

Lemma rstrip_last s pre ch : rstrip s = pre ++ String ch "" -> py_isspace ch = false.
Proof.
  revert pre; induction s as [|c s IH]; intros pre; simpl.
  { destruct pre; discriminate. }
  destruct (String.eqb (rstrip s) "" && py_isspace c) eqn:B.
  { destruct pre; discriminate. }
  destruct pre as [|p pre']; simpl; intros H; injection H as H1 H2.
  - subst c. rewrite H2 in B. exact B.
  - exact (IH pre' H2).
Qed.

Lemma rstrip_idem s : rstrip (rstrip s) = rstrip s.
Proof.
  induction s as [|c s IH]; [done|]. simpl.
  destruct (String.eqb (rstrip s) "" && py_isspace c) eqn:B; [done|].
  simpl. rewrite IH, B. reflexivity.
Qed.

Lemma strip_cases s :
  (lstrip s = "" /\ strip s = "") \/
  exists ch r, lstrip s = String ch r /\ py_isspace ch = false /\ strip s = String ch (rstrip r).
Proof.
  unfold strip. destruct (lstrip s) as [|ch r] eqn:E; [left; done|right].
  exists ch, r. pose proof (lstrip_head _ _ _ E) as Hch. split; [done|]. split; [done|].
  apply rstrip_cons_nonspace. exact Hch.
Qed.

Lemma strip_head s ch rest : strip s = String ch rest -> py_isspace ch = false.
Proof.
  destruct (strip_cases s) as [[_ ->]|[c [r [_ [Hc ->]]]]]; [discriminate|].
  intros H; injection H as <- _. exact Hc.
Qed.

Lemma strip_idem s : strip (strip s) = strip s.
Proof.
  destruct (strip_cases s) as [[_ ->]|[c [r [_ [Hc ->]]]]]; [done|].
  unfold strip at 1. simpl. rewrite Hc. rewrite <- (rstrip_cons_nonspace c r Hc). apply rstrip_idem.
Qed.

Lemma lstrip_length s : String.length (lstrip s) <= String.length s.
Proof. induction s as [|c s IH]; simpl; [done|]. destruct (py_isspace c); simpl; lia. Qed.

Lemma rstrip_length s : String.length (rstrip s) <= String.length s.
Proof.
  induction s as [|c s IH]; simpl; [done|].
  destruct (String.eqb (rstrip s) "" && py_isspace c); simpl; lia.
Qed.

Lemma lstrip_empty_iff s :
  lstrip s = "" <-> forall ch, In ch (list_ascii_of_string s) -> py_isspace ch = true.
Proof.
  induction s as [|c s IH]; simpl; [split; [intros _ ch []|done]|].
  destruct (py_isspace c) eqn:E; rewrite ?IH; split.
  - intros H ch [<-|Hin]; [exact E|exact (H ch Hin)].
  - intros H ch Hin. apply H. right. exact Hin.
  - discriminate.
  - intros H. rewrite (H c (or_introl eq_refl)) in E. discriminate.
Qed.

Lemma strip_empty_iff s :
  strip s = "" <-> forall ch, In ch (list_ascii_of_string s) -> py_isspace ch = true.
Proof.
  rewrite <- lstrip_empty_iff.
  destruct (strip_cases s) as [[-> ->]|[c [r [-> [_ ->]]]]]; split; done.
Qed.

Lemma lstrip_nonempty_iff s :
  lstrip s <> "" <-> exists ch, In ch (list_ascii_of_string s) /\ py_isspace ch = false.
Proof.
  induction s as [|c s IH]; simpl.
  { split; [done|]. intros [ch [[] _]]. }
  destruct (py_isspace c) eqn:E.
  - rewrite IH. split; intros [ch [Hin Hch]].
    + exists ch. split; [right; exact Hin|exact Hch].
    + destruct Hin as [<-|Hin]; [congruence|]. exists ch. done.
  - split; [intros _; exists c; split; [left; reflexivity|exact E]|discriminate].
Qed.

(** [QueryRequest.query]: a raw query is accepted exactly when it has 1 to
    2000 characters and at least one of them is not whitespace; the
    accepted value is the stripped query, non-empty, neither starting nor
    ending with whitespace, and validating it again returns it unchanged. *)
Theorem validate_query_spec (v : string) :
  ((exists w, validate_query v = inr w) <->
     1 <= String.length v <= 2000 /\
     exists ch, In ch (list_ascii_of_string v) /\ py_isspace ch = false) /\
  (forall w, validate_query v = inr w ->
     w = strip v /\ w <> "" /\
     (forall ch rest, w = String ch rest -> py_isspace ch = false) /\
     (forall pre ch, w = pre ++ String ch "" -> py_isspace ch = false) /\
     validate_query w = inr w).
Proof.
  assert (Hne : forall s, strip s <> "" <->
            exists ch, In ch (list_ascii_of_string s) /\ py_isspace ch = false).
  { intros s. rewrite <- lstrip_nonempty_iff.
    destruct (strip_cases s) as [[-> ->]|[c [r [-> [_ ->]]]]]; split; done. }
  unfold validate_query. split.
  - rewrite <- Hne. split.
    + intros [w Hw].
      destruct (Nat.ltb (String.length v) 1) eqn:L1; [discriminate|].
      destruct (Nat.ltb 2000 (String.length v)) eqn:L2; [discriminate|].
      apply Nat.ltb_ge in L1, L2.
      destruct (String.eqb v "" || String.eqb (strip v) "") eqn:B; [discriminate|].
      apply orb_false_iff in B as [_ B]. apply String.eqb_neq in B. split; [lia|exact B].
    + intros [[L1 L2] Hs]. apply Nat.ltb_ge in L1, L2. rewrite L1, L2.
      apply String.eqb_neq in Hs. rewrite Hs.
      destruct (String.eqb v "") eqn:E; [apply String.eqb_eq in E; subst v; discriminate L1|].
      eexists. reflexivity.
  - intros w Hw.
    destruct (Nat.ltb (String.length v) 1) eqn:L1; [discriminate|].
    destruct (Nat.ltb 2000 (String.length v)) eqn:L2; [discriminate|].
    apply Nat.ltb_ge in L1, L2.
    destruct (String.eqb v "" || String.eqb (strip v) "") eqn:B; [discriminate|].
    injection Hw as <-. apply orb_false_iff in B as [_ B]. apply String.eqb_neq in B.
    split; [done|]. split; [exact B|]. split; [|split].
    + apply strip_head.
    + intros pre ch H. exact (rstrip_last _ pre ch H).
    + assert (Hlen : String.length (strip v) <= String.length v).
      { unfold strip. pose proof (lstrip_length v). pose proof (rstrip_length (lstrip v)). lia. }
      assert (Hpos : 1 <= String.length (strip v)) by (destruct (strip v); [done|simpl; lia]).
      apply Nat.ltb_ge in Hpos. assert (Hmax : Nat.ltb 2000 (String.length (strip v)) = false)
        by (apply Nat.ltb_ge; lia).
      rewrite Hpos, Hmax, strip_idem.
      apply String.eqb_neq in B. rewrite B, orb_false_r. reflexivity.
Qed.

Lemma session_name_prefix n : String.prefix "session_" (session_name n) = true.
Proof. unfold session_name. simpl. destruct (pretty n); reflexivity. Qed.

(** Every id minted by [create_session] that fits the 100-character limit
    passes both session-id validators of the API unchanged. *)
Theorem minted_ids_pass_validators (c : nat) :
  String.length (session_name c) <= 100 ->
  validate_query_session_id (Some (session_name c)) = inr (Some (session_name c)) /\
  validate_clear_session_id (session_name c) = inr (session_name c).
Proof.
  intros H. apply Nat.ltb_ge in H. unfold validate_query_session_id, validate_clear_session_id.
  rewrite H, session_name_prefix. split; reflexivity.
Qed.

(** The session id [query_documents] hands to the RAG system, for any
    request that passed validation, starts with "session_" (so it is never
    empty): it is the caller's id when one was given, and otherwise the id
    just minted by [create_session], the store being updated accordingly. *)
Theorem resolved_session_valid (m : SessionManager) raw v now :
  validate_query_session_id raw = inr v ->
  let '(sid, m') := resolve_session m v now in
  String.prefix "session_" sid = true /\
  ((v = Some sid /\ m' = m) \/ ((v = None \/ v = Some "") /\ (sid, m') = create_session m now)).
Proof.
  destruct raw as [s|]; simpl; intros H.
  - destruct (Nat.ltb 100 (String.length s)); [discriminate|].
    destruct (negb (String.eqb s "") && negb (String.prefix "session_" s)) eqn:B; [discriminate|].
    injection H as <-. simpl. destruct (String.eqb s "") eqn:E.
    + apply String.eqb_eq in E. subst s. split; [apply session_name_prefix|].
      right. split; [right; done|reflexivity].
    + simpl in B. destruct (String.prefix "session_" s); [|discriminate].
      split; [reflexivity|]. left. done.
  - injection H as <-. simpl. split; [apply session_name_prefix|].
    right. split; [left; done|reflexivity].
Qed.

End ApiExtras.

Module SessionExtraWitnesses.
Import Sessions Scenarios SessionExtras.

Lemma add_message_keeps_newest_witness :
  (0 <= max_history demo_store)%Z /\
  let old := match sessions demo_store !! "session_2" with
             | Some si => si | None => fresh_session "session_2" 5 end in
  let msg := {| msg_role := "assistant"; msg_content := "Hello"; msg_timestamp := 5 |} in
  exists si, sessions (add_message demo_store "session_2" "assistant" "Hello" 5) !! "session_2" = Some si /\
    last (messages si) = Some msg /\
    messages si `suffix_of` app (messages old) [msg] /\
    session_id si = session_id old /\ created_at si = created_at old /\ last_activity si = 5%Z.
Proof.
  split; [vm_compute; discriminate|].
  apply (add_message_keeps_newest demo_store "session_2" "assistant" "Hello" 5).
  vm_compute. discriminate.
Defined.

Lemma add_message_window_witness :
  (1 <= max_history demo_store)%Z /\
  let old := match sessions demo_store !! "session_2" with Some si => messages si | None => [] end in
  let all := app old [{| msg_role := "assistant"; msg_content := "Hello"; msg_timestamp := 5 |}] in
  exists si, sessions (add_message demo_store "session_2" "assistant" "Hello" 5) !! "session_2" = Some si /\
    messages si = drop (length all - Z.to_nat (2 * max_history demo_store)) all /\
    (Z.of_nat (length (messages si)) <= 2 * max_history demo_store)%Z.
Proof.
  split; [vm_compute; discriminate|].
  apply (add_message_window demo_store "session_2" "assistant" "Hello" 5).
  vm_compute. discriminate.
Defined.

Lemma other_sessions_untouched_witness :
  "session_2" <> "session_1" /\
  sessions (add_message demo_store "session_1" "user" "Q" 3) !! "session_2" = sessions demo_store !! "session_2" /\
  sessions (add_exchange demo_store "session_1" "Q" "A" 3) !! "session_2" = sessions demo_store !! "session_2" /\
  sessions (snd (get_conversation_history demo_store (Some "session_1") 3)) !! "session_2"
    = sessions demo_store !! "session_2" /\
  sessions (clear_session demo_store "session_1") !! "session_2" = sessions demo_store !! "session_2" /\
  ("session_2" <> fst (create_session demo_store 3) ->
     sessions (snd (create_session demo_store 3)) !! "session_2" = sessions demo_store !! "session_2").
Proof.
  split; [discriminate|].
  apply (other_sessions_untouched demo_store "session_1" "session_2" "user" "Q" "Q" "A" 3).
  discriminate.
Defined.

Lemma exchange_then_history_witness :
  sessions demo_store !! "session_1" = None /\ "session_1" <> "" /\ (1 <= max_history demo_store)%Z /\
  fst (get_conversation_history (add_exchange demo_store "session_1" "What is RAG?" "Retrieval." 4)
         (Some "session_1") 5)
  = Some (("User: " ++ "What is RAG?") ++ nl ++ ("Assistant: " ++ "Retrieval.")).
Proof.
  split; [vm_compute; reflexivity|]. split; [discriminate|]. split; [vm_compute; discriminate|].
  apply (exchange_then_history demo_store "session_1" "What is RAG?" "Retrieval." 4 5);
    [vm_compute; reflexivity|discriminate|vm_compute; discriminate].
Defined.

End SessionExtraWitnesses.

Module ApiExtraWitnesses.
Import Sessions Api ApiExtras.

Lemma minted_ids_pass_validators_witness :
  String.length (session_name 1) <= 100 /\
  validate_query_session_id (Some (session_name 1)) = inr (Some (session_name 1)) /\
  validate_clear_session_id (session_name 1) = inr (session_name 1).
Proof.
  split; [apply Nat.leb_le; vm_compute; reflexivity|].
  apply (minted_ids_pass_validators 1). apply Nat.leb_le. vm_compute. reflexivity.
Defined.

Lemma resolved_session_valid_witness :
  validate_query_session_id (Some "") = inr (Some "") /\
  let '(sid, m') := resolve_session (new_manager 5 60) (Some "") 0 in
  String.prefix "session_" sid = true /\
  ((Some "" = Some sid /\ m' = new_manager 5 60) \/
   ((Some "" = None \/ Some "" = Some "") /\ (sid, m') = create_session (new_manager 5 60) 0)).
Proof.
  split; [reflexivity|].
  apply (resolved_session_valid (new_manager 5 60) (Some "") (Some "") 0). reflexivity.
Defined.

End ApiExtraWitnesses.
